(** * mdp: markdown previewer with live reload (main.go)

    A shallow embedding of [main.go].  The sequential functions
    ([parseContent], [saveHTML], [preview], [markdownHandler.ServeHTTP],
    the start of [run], [main]) are Rocq functions over an explicit file
    system.  The goroutines of watch mode (the orchestrator loop of [run],
    [fileWatcher] and its event goroutine, the first [serveContent], one
    [ws] handler per WebSocket connection) are program counters of one
    state, and [step] interleaves them; the two unbuffered channels
    [rebuild] and [serverUp] are rendezvous steps. *)

From Stdlib Require Import ZArith Lia.
From stdpp Require Import base gmap strings list.

Local Open Scope string_scope.

(** ** Values *)

Abbreviation bytes := (list Byte.byte).

(** A Go [error], by its message. *)
Abbreviation error := string.

Inductive result (A : Type) : Type :=
| Ok (a : A)
| Err (e : error).
Arguments Ok {A} a.
Arguments Err {A} e.

Definition rbind {A B} (r : result A) (k : A -> result B) : result B :=
  match r with
  | Ok a => k a
  | Err e => Err e
  end.

Notation "'try' x <- r 'in' k" := (rbind r (fun x => k))
  (at level 10, x name, r at level 100, k at level 200).

(** ** The file system seen through [os.ReadFile] and [os.WriteFile] *)

Record FS := mkFS {
  files : gmap string bytes;
  (** paths [os.WriteFile] is refused on *)
  readonly : gset string
}.

Definition ReadFile (fs : FS) (name : string) : result bytes :=
  match files fs !! name with
  | Some b => Ok b
  | None => Err ("open " +:+ name +:+ ": no such file or directory")
  end.

Definition WriteFile (fs : FS) (name : string) (data : bytes) (perm : N)
  : result FS :=
  if decide (name ∈ readonly fs)
  then Err ("open " +:+ name +:+ ": permission denied")
  else Ok (mkFS (<[name := data]> (files fs)) (readonly fs)).

(** ** Types of main.go *)

Record content := mkContent {
  FileName : string;
  Title : string;
  Body : bytes
}.

Record markdownHandler := mkHandler {
  body : bytes;
  filename : string;
  tFname : string
}.

(** [Type] is reserved; the field carries the tag [json:"type"]. *)
Record websocketEvent := mkEvent { Type_ : string }.

Definition port : string := ":5052".

(** ** External collaborators

    goldmark, bluemonday, html/template, runtime and os/exec are not part
    of the repository; the program is verified for any behaviour of
    theirs.  [defaultTemplate] is the constant of lines 26-88, whose text
    no property below depends on. *)

Record Platform := mkPlatform {
  Template : Type;
  defaultTemplate : string;
  (** [md.Convert] of the goldmark instance built in [parseContent] *)
  Convert : bytes -> result bytes;
  (** [bluemonday.UGCPolicy().SanitizeBytes] *)
  SanitizeBytes : bytes -> bytes;
  (** [template.New(name).Parse(text)] *)
  Parse : string -> string -> result Template;
  (** [template.ParseFiles(name)], which reads the file system *)
  ParseFiles : FS -> string -> result Template;
  (** [t.Execute(&buffer, c)] *)
  Execute : Template -> content -> result bytes;
  (** [runtime.GOOS] *)
  GOOS : string;
  (** [exec.LookPath] *)
  LookPath : string -> result string;
  (** [exec.Command(path, params...).Run()] *)
  RunCommand : string -> list string -> option error
}.

(** ** fsnotify events *)

(** [fsnotify.Op] is a bit mask: Create = 1, Write = 2, Remove = 4,
    Rename = 8, Chmod = 16. *)
Abbreviation Op := N.

Definition Create : Op := 1.
Definition Write : Op := 2.
Definition Remove : Op := 4.
Definition Rename : Op := 8.
Definition Chmod : Op := 16.

Record Event := mkFsEvent { Name : string; EOp : Op }.

(** [Event.Has]: [e.Op & op == op]. *)
Definition Has (e : Event) (op : Op) : bool := N.eqb (N.land (EOp e) op) op.

(** ** gorilla/websocket connections *)

(** A JSON object whose members are strings, as (key, value) pairs. *)
Inductive JSON :=
| JObject (members : list (string * string)).

(** [encoding/json] of a [websocketEvent]. *)
Definition json_of_event (e : websocketEvent) : JSON :=
  JObject [("type", Type_ e)].

(** The [websocket.Conn] methods a handler can call; [ws] calls the first
    two only. *)
Inductive ConnOp :=
| OpWriteJSON (v : websocketEvent)
| OpClose
| OpWriteClose (code : Z) (reason : string).

Inductive Frame :=
| TextFrame (payload : JSON)
| CloseFrame (code : Z) (reason : string).

(** What a call puts on the wire.  [Conn.Close] closes the underlying
    network connection without sending or waiting for a close message;
    a close frame is only sent by writing a close message
    ([FormatCloseMessage(code, reason)]). *)
Definition wire (op : ConnOp) : list Frame :=
  match op with
  | OpWriteJSON v => [TextFrame (json_of_event v)]
  | OpClose => []
  | OpWriteClose code reason => [CloseFrame code reason]
  end.

Definition frames (ops : list ConnOp) : list Frame := flat_map wire ops.

Definition CloseNormalClosure : Z := 1000.

Definition build_complete : websocketEvent := mkEvent "build_complete".

(** ** Sequential functions *)

Section Sequential.
Context (P : Platform).

Definition parseContent (fs : FS) (input : bytes) (inFilename tFname : string)
  : result bytes :=
  try output <- Convert P input in
  let body := SanitizeBytes P output in
  try t <- Parse P "mdp" (defaultTemplate P) in
  try t <- (if decide (tFname ≠ "") then ParseFiles P fs tFname else Ok t) in
  let c := mkContent inFilename "Markdown Preview Tool" body in
  try buffer <- Execute P t c in
  Ok buffer.

Definition saveHTML (fs : FS) (outFname : string) (data : bytes) : result FS :=
  WriteFile fs outFname data 420.

(** The calls to [w.Write] of one request, in order. *)
Definition ServeHTTP (fs : FS) (md : markdownHandler) : list bytes :=
  match ReadFile fs (filename md) with
  | Err _ => []
  | Ok newInput =>
    match parseContent fs newInput (filename md) (tFname md) with
    | Err _ => []
    | Ok newHTMLData => [newHTMLData]
    end
  end.

(** [None] is the nil error. *)
Definition preview (fname : string) : option error :=
  let launcher : option (string * list string) :=
    if decide (GOOS P = "linux") then Some ("xdg-open", [])
    else if decide (GOOS P = "windows") then Some ("cmd.exe", ["/C"; "start"])
    else if decide (GOOS P = "darwin") then Some ("open", [])
    else None in
  match launcher with
  | None => Some "OS not supported"
  | Some (cName, cParams) =>
    let cParams := (cParams ++ [fname])%list in
    match LookPath P cName with
    | Err err => Some err
    | Ok cPath => RunCommand P cPath cParams
    end
  end.

End Sequential.

(** ** Watch mode: goroutines, channels and the port *)

Inductive Who := Orchestrator | FirstCycle.

(** TCP port 5052: free, bound by a listener of this process, or bound by
    another process. *)
Inductive Port := PortFree | PortHeld (w : Who) | PortOther.

(** Inside one call of [serveContent]: about to call
    [http.ListenAndServe], blocked in it with the port bound, or blocked
    on [serverUp <- true] after it returned. *)
Inductive CallPC := Listen | Serving | SendUp.

(** The goroutine of [main]/[run]: in [preview], blocked on
    [range rebuild], inside [serveContent], or returned. *)
Inductive OrchPC := OPreview | ORange | OServe (c : CallPC) | OReturned.

(** [go serveContent(inFilename, tFname)]. *)
Inductive SrvPC := SNotStarted | SServe (c : CallPC) | SReturned.

(** [go fileWatcher(inFilename, rebuild)]: before [fsnotify.NewWatcher],
    before [watcher.Add], blocked on the empty channel of line 200. *)
Inductive WatcherPC := WNotStarted | WNew | WAdd | WBlocked.

(** The goroutine of lines 176-193: in [select], blocked on
    [rebuild <- true], or returned. *)
Inductive PumpPC := PNotStarted | PSelect | PSend | PReturned.

(** A [ws] handler after a successful upgrade: blocked on [<-serverUp],
    holding the received value, at the deferred [c.Close()], finished. *)
Inductive WsPC := WsWait | WsGot (up : bool) | WsDefer | WsDone.

Record Conn := mkConn { wpc : WsPC; ops : list ConnOp }.

(** What happens, newest first.  [Stdout] and [Stderr] are what the user
    sees; the others record the step taken. *)
Inductive Obs :=
| Stdout (line : string)
| Stderr (line : string)
| ObsPreview (err : option error)
| ObsRebuild
| ObsBind (w : Who) (ok : bool)
| ObsUp (w : Who) (i : nat)
| ObsEvent (e : Event)
| ObsResponse (writes : list bytes)
| ObsWs (i : nat) (op : ConnOp).

Record State := mkState {
  file : string;
  tmpl : string;
  disk : FS;
  exited : option Z;
  orch : OrchPC;
  watcher : WatcherPC;
  pump : PumpPC;
  srv : SrvPC;
  tcp : Port;
  evq : list Event;
  errq : list error;
  conns : list Conn;
  trace : list Obs
}.

Definition set_disk (v : FS) (s : State) : State :=
  mkState (file s) (tmpl s) v (exited s) (orch s) (watcher s) (pump s) (srv s) (tcp s) (evq s) (errq s) (conns s) (trace s).

Definition set_exited (v : option Z) (s : State) : State :=
  mkState (file s) (tmpl s) (disk s) v (orch s) (watcher s) (pump s) (srv s) (tcp s) (evq s) (errq s) (conns s) (trace s).

Definition set_orch (v : OrchPC) (s : State) : State :=
  mkState (file s) (tmpl s) (disk s) (exited s) v (watcher s) (pump s) (srv s) (tcp s) (evq s) (errq s) (conns s) (trace s).

Definition set_watcher (v : WatcherPC) (s : State) : State :=
  mkState (file s) (tmpl s) (disk s) (exited s) (orch s) v (pump s) (srv s) (tcp s) (evq s) (errq s) (conns s) (trace s).

Definition set_pump (v : PumpPC) (s : State) : State :=
  mkState (file s) (tmpl s) (disk s) (exited s) (orch s) (watcher s) v (srv s) (tcp s) (evq s) (errq s) (conns s) (trace s).

Definition set_srv (v : SrvPC) (s : State) : State :=
  mkState (file s) (tmpl s) (disk s) (exited s) (orch s) (watcher s) (pump s) v (tcp s) (evq s) (errq s) (conns s) (trace s).

Definition set_tcp (v : Port) (s : State) : State :=
  mkState (file s) (tmpl s) (disk s) (exited s) (orch s) (watcher s) (pump s) (srv s) v (evq s) (errq s) (conns s) (trace s).

Definition set_evq (v : list Event) (s : State) : State :=
  mkState (file s) (tmpl s) (disk s) (exited s) (orch s) (watcher s) (pump s) (srv s) (tcp s) v (errq s) (conns s) (trace s).

Definition set_errq (v : list error) (s : State) : State :=
  mkState (file s) (tmpl s) (disk s) (exited s) (orch s) (watcher s) (pump s) (srv s) (tcp s) (evq s) v (conns s) (trace s).

Definition set_conns (v : list Conn) (s : State) : State :=
  mkState (file s) (tmpl s) (disk s) (exited s) (orch s) (watcher s) (pump s) (srv s) (tcp s) (evq s) (errq s) v (trace s).

Definition set_trace (v : list Obs) (s : State) : State :=
  mkState (file s) (tmpl s) (disk s) (exited s) (orch s) (watcher s) (pump s) (srv s) (tcp s) (evq s) (errq s) (conns s) v.

Definition emit (o : Obs) (s : State) : State := set_trace (o :: trace s) s.

(** [log.Fatal(err)]: the message on the error stream, then [os.Exit(1)]. *)
Definition log_Fatal (err : error) (s : State) : State :=
  set_exited (Some 1%Z) (emit (Stderr err) s).

(** The port when the process starts: nothing of this process is bound;
    [busy] tells whether another process holds it. *)
Definition port0 (busy : bool) : Port := if busy then PortOther else PortFree.

Definition listening (s : State) : bool :=
  match tcp s with
  | PortHeld _ => true
  | _ => false
  end.

(** [serveContent] from its call to the point where it blocks:
    [http.ListenAndServe(port, mux)] binds the port and serves, or returns
    an error at once when the port is taken, and then [serverUp <- true]
    is reached. *)
Definition serveContent (w : Who) (p : Port) : Port * CallPC * bool :=
  match p with
  | PortFree => (PortHeld w, Serving, true)
  | _ => (p, SendUp, false)
  end.

(** The [watcher.Events] case of the select. *)
Definition fileWatcher_event (event : Event) (ok : bool) : PumpPC :=
  if negb ok then PReturned
  else if Has event Write then PSend
  else PSelect.

(** The [watcher.Errors] case of the select: the line logged, if any, and
    where the goroutine goes. *)
Definition fileWatcher_error (err : error) (ok : bool) : list Obs * PumpPC :=
  if negb ok then ([], PReturned)
  else ([Stderr ("error: " +:+ err)], PSelect).

(** [ws] after the upgrade, one call on the connection at a time. *)
Definition ws (c : Conn) : option (list ConnOp * WsPC) :=
  match wpc c with
  | WsWait => None
  | WsGot up => Some (if up then [OpWriteJSON build_complete] else [], WsDefer)
  | WsDefer => Some ([OpClose], WsDone)
  | WsDone => None
  end.

Definition host : string := "http://localhost:5052/content".

(** Who moves, and what the environment does. *)
Inductive Label :=
| LPreview                         (* preview(host) returns *)
| LRebuild                         (* rebuild: event goroutine to orchestrator *)
| LListen (w : Who)                (* http.ListenAndServe in serveContent *)
| LUp (w : Who) (i : nat)          (* serverUp: serveContent to handler i *)
| LWatcherNew (err : option error) (* fsnotify.NewWatcher() *)
| LWatcherAdd (err : option error) (* watcher.Add(file) *)
| LPumpEvent                       (* select: case <-watcher.Events *)
| LPumpError                       (* select: case <-watcher.Errors *)
| LOsEvent (e : Event)             (* the kernel reports an event *)
| LOsError (err : error)           (* the kernel reports an error *)
| LDisk (d : FS)                   (* files change *)
| LGetContent                      (* GET /content *)
| LGetWebsocket (err : option error) (* GET /websocket and its upgrade *)
| LWs (i : nat)                    (* handler i goes on *)
| LPortRelease                     (* another process frees the port *)
| LPortGrab.                       (* another process binds the port *)

Section Watch.
Context (P : Platform).

Definition step (l : Label) (s : State) : option State :=
  if exited s is Some _ then None else
  match l with
  | LPreview =>
    match orch s with
    | OPreview => Some (set_orch ORange (emit (ObsPreview (preview P host)) s))
    | _ => None
    end
  | LRebuild =>
    match orch s, pump s with
    | ORange, PSend =>
      Some (set_orch (OServe Listen) (set_pump PSelect (emit ObsRebuild s)))
    | _, _ => None
    end
  | LListen Orchestrator =>
    match orch s with
    | OServe Listen =>
      let '(p, c, ok) := serveContent Orchestrator (tcp s) in
      Some (set_orch (OServe c) (set_tcp p (emit (ObsBind Orchestrator ok) s)))
    | _ => None
    end
  | LListen FirstCycle =>
    match srv s with
    | SServe Listen =>
      let '(p, c, ok) := serveContent FirstCycle (tcp s) in
      Some (set_srv (SServe c) (set_tcp p (emit (ObsBind FirstCycle ok) s)))
    | _ => None
    end
  | LUp w i =>
    match conns s !! i with
    | Some (mkConn WsWait o) =>
      let s' := set_conns (<[i := mkConn (WsGot true) o]> (conns s))
                          (emit (ObsUp w i) s) in
      match w, orch s, srv s with
      | Orchestrator, OServe SendUp, _ => Some (set_orch ORange s')
      | FirstCycle, _, SServe SendUp => Some (set_srv SReturned s')
      | _, _, _ => None
      end
    | _ => None
    end
  | LWatcherNew err =>
    match watcher s with
    | WNew =>
      match err with
      | Some e => Some (log_Fatal e s)
      | None => Some (set_watcher WAdd (set_pump PSelect s))
      end
    | _ => None
    end
  | LWatcherAdd err =>
    match watcher s with
    | WAdd =>
      match err with
      | Some e => Some (log_Fatal e s)
      | None => Some (set_watcher WBlocked s)
      end
    | _ => None
    end
  | LPumpEvent =>
    match pump s, evq s with
    | PSelect, event :: q =>
      Some (set_pump (fileWatcher_event event true)
              (set_evq q (emit (ObsEvent event) s)))
    | _, _ => None
    end
  | LPumpError =>
    match pump s, errq s with
    | PSelect, err :: q =>
      let '(out, pc) := fileWatcher_error err true in
      Some (set_pump pc (set_errq q (set_trace (out ++ trace s) s)))
    | _, _ => None
    end
  | LOsEvent e =>
    match watcher s with
    | WBlocked => Some (set_evq (evq s ++ [e]) s)
    | _ => None
    end
  | LOsError err =>
    match watcher s with
    | WBlocked => Some (set_errq (errq s ++ [err]) s)
    | _ => None
    end
  | LDisk d => Some (set_disk d s)
  | LGetContent =>
    if listening s
    then Some (emit (ObsResponse
                       (ServeHTTP P (disk s) (mkHandler [] (file s) (tmpl s)))) s)
    else None
  | LGetWebsocket err =>
    if listening s
    then match err with
         | Some e => Some (emit (Stderr ("upgrade:" +:+ e)) s)
         | None => Some (set_conns (conns s ++ [mkConn WsWait []]) s)
         end
    else None
  | LWs i =>
    match conns s !! i with
    | Some c =>
      match ws c with
      | Some (o, pc) =>
        Some (set_conns (<[i := mkConn pc (ops c ++ o)]> (conns s))
                (set_trace (rev (ObsWs i <$> o) ++ trace s) s))
      | None => None
      end
    | None => None
    end
  | LPortRelease =>
    match tcp s with
    | PortOther => Some (set_tcp PortFree s)
    | _ => None
    end
  | LPortGrab =>
    match tcp s with
    | PortFree => Some (set_tcp PortOther s)
    | _ => None
    end
  end.

Fixpoint exec (ls : list Label) (s : State) : option State :=
  match ls with
  | [] => Some s
  | l :: ls' =>
    match step l s with
    | Some s' => exec ls' s'
    | None => None
    end
  end.

(** ** [run] and [main] *)

Inductive RunResult :=
| Returned (err : option error) (d : FS)
| Watching (s : State).

(** The state in which [run] reaches [preview]: both goroutines started,
    the listening line printed. *)
Definition watching (d : FS) (busy : bool) (inFilename tFname : string) : State :=
  mkState inFilename tFname d None OPreview WNew PNotStarted (SServe Listen)
          (port0 busy) [] [] []
          [Stdout ("Server listening on http://localhost" +:+ port +:+ "/content")].

Definition run (d : FS) (busy : bool) (inFilename outFilename tFname : string)
  : RunResult :=
  match ReadFile d inFilename with
  | Err err => Returned (Some err) d
  | Ok input =>
    match parseContent P d input inFilename tFname with
    | Err err => Returned (Some err) d
    | Ok htmlData =>
      if decide (outFilename ≠ "") then
        match saveHTML d outFilename htmlData with
        | Err err => Returned (Some err) d
        | Ok d' => Returned None d'
        end
      else Watching (watching d busy inFilename tFname)
    end
  end.

(** The process once [main] is over without watch mode: no goroutine was
    started. *)
Definition halted (d : FS) (busy : bool) (inFilename tFname : string)
    (code : Z) (out : list Obs) : State :=
  mkState inFilename tFname d (Some code) OReturned WNotStarted PNotStarted
          SNotStarted (port0 busy) [] [] [] out.

(** [main] after [flag.Parse()]; the default of [-outfile] is computed
    from [*inFilename] before parsing, hence empty. *)
Definition main (d : FS) (busy : bool) (inFilename outFilename tFname : string)
  : State :=
  if decide (inFilename = "")
  then halted d busy inFilename tFname 1 [Stderr "Usage"]
  else
    match run d busy inFilename outFilename tFname with
    | Returned (Some err) d' => halted d' busy inFilename tFname 1 [Stderr err]
    | Returned None d' => halted d' busy inFilename tFname 0 []
    | Watching s => s
    end.

End Watch.

(** ** Counting over the trace *)

Fixpoint tally (f : Obs -> bool) (tr : list Obs) : nat :=
  match tr with
  | [] => 0
  | o :: tr' => (if f o then 1 else 0) + tally f tr'
  end.

(** Write events the event goroutine took from [watcher.Events]. *)
Definition is_write (o : Obs) : bool :=
  match o with
  | ObsEvent e => Has e Write
  | _ => false
  end.

(** RebuildEvents the orchestrator received. *)
Definition is_rebuild (o : Obs) : bool :=
  match o with
  | ObsRebuild => true
  | _ => false
  end.

(** Values handed over on [serverUp]. *)
Definition is_up (o : Obs) : bool :=
  match o with
  | ObsUp _ _ => true
  | _ => false
  end.

(** Messages written to a WebSocket connection. *)
Definition is_message (o : Obs) : bool :=
  match o with
  | ObsWs _ (OpWriteJSON _) => true
  | _ => false
  end.

(** What reaches the user's terminal. *)
Definition is_visible (o : Obs) : bool :=
  match o with
  | Stdout _ | Stderr _ => true
  | _ => false
  end.

Definition visible (tr : list Obs) : list Obs := filter (fun o => is_visible o = true) tr.

Definition nWrite (s : State) : nat := tally is_write (trace s).
Definition nRebuild (s : State) : nat := tally is_rebuild (trace s).
Definition nUp (s : State) : nat := tally is_up (trace s).
Definition nMessage (s : State) : nat := tally is_message (trace s).


(** Handlers that received from [serverUp] and did not write yet. *)
Fixpoint holding (cs : list Conn) : nat :=
  match cs with
  | [] => 0
  | c :: cs' => (match wpc c with WsGot _ => 1 | _ => 0 end) + holding cs'
  end.

Definition pending_rebuild (s : State) : nat :=
  match pump s with
  | PSend => 1
  | _ => 0
  end.

Definition orch_in_call (s : State) : nat :=
  match orch s with
  | OServe _ => 1
  | _ => 0
  end.

Definition srv_returned (s : State) : nat :=
  match srv s with
  | SReturned => 1
  | _ => 0
  end.

(** What a handler has done on its connection, by where it is. *)
Definition conn_ok (c : Conn) : Prop :=
  match wpc c with
  | WsWait | WsGot true => ops c = []
  | WsGot false => False
  | WsDefer => ops c = [OpWriteJSON build_complete]
  | WsDone => ops c = [OpWriteJSON build_complete; OpClose]
  end.

(** ** A platform to run the program on

    Rendering copies the source after the file name; an empty source does
    not convert; the operating system is one [preview] does not know. *)

Definition sample_platform : Platform :=
  mkPlatform string "{{ .Body }}"
    (fun input => match input with [] => Err "empty document" | _ => Ok input end)
    (fun b => b)
    (fun _ text => Ok text)
    (fun fs name => match ReadFile fs name with
                    | Ok b => Ok (String.string_of_list_byte b)
                    | Err e => Err e
                    end)
    (fun _ c => Ok (String.list_byte_of_string (FileName c) ++ Body c)%list)
    "plan9"
    (fun _ => Err "executable file not found in $PATH")
    (fun _ _ => None).

Definition sample_doc : bytes := String.list_byte_of_string "# t".

Definition sample_disk : FS := mkFS {[ "a.md" := sample_doc ]} ∅.

Definition broken_disk : FS := mkFS {[ "a.md" := [] ]} ∅.

Definition write_event : Event := mkFsEvent "a.md" Write.

Definition chmod_event : Event := mkFsEvent "a.md" Chmod.

Definition other_disk : FS :=
  mkFS {[ "a.md" := sample_doc; "notes.txt" := [] ]} {[ "a.md" ]}.

Definition sample_html : bytes := String.list_byte_of_string "a.md# t".

(** The sample platform's run of a schedule. *)
Definition after (ls : list Label) (s : State) : State :=
  default s (exec sample_platform ls s).

(** The first cycle has bound the port and the source on disk is empty. *)
Definition broken_serving : State :=
  after [LListen FirstCycle; LPreview] (watching broken_disk false "a.md" "").

(** The watch is registered, a chmod then a write are queued, and one
    kernel error. *)
Definition events_queued : State :=
  after [LWatcherNew None; LWatcherAdd None; LPreview;
         LOsEvent chmod_event; LOsEvent write_event; LOsError "overflow"]
        (watching sample_disk false "a.md" "").

(** The first cycle serves, a write was taken and received, the second
    [ListenAndServe] failed, and no browser is connected. *)
Definition blocked_no_client : State :=
  after [LListen FirstCycle; LWatcherNew None; LWatcherAdd None; LPreview;
         LOsEvent write_event; LPumpEvent; LRebuild; LListen Orchestrator;
         LOsEvent write_event; LPumpEvent]
        (watching sample_disk false "a.md" "").

(** The first cycle serves, one browser is connected, a write was taken by
    the event goroutine. *)
Definition client_waiting : State :=
  after [LListen FirstCycle; LWatcherNew None; LWatcherAdd None; LPreview;
         LGetWebsocket None; LOsEvent write_event; LPumpEvent]
        (watching sample_disk false "a.md" "").

(** Two writes reported back to back before anything is taken, with one
    browser connected; each is then taken, received, and answered, the
    browser connecting again in between. *)
Definition two_rapid_writes : list Label :=
  [LListen FirstCycle; LWatcherNew None; LWatcherAdd None; LPreview;
   LGetWebsocket None; LOsEvent write_event; LOsEvent write_event;
   LPumpEvent; LRebuild; LListen Orchestrator; LUp Orchestrator 0;
   LWs 0; LWs 0;
   LGetWebsocket None;
   LPumpEvent; LRebuild; LListen Orchestrator; LUp Orchestrator 1;
   LWs 1; LWs 1].

Definition reloaded_twice : State :=
  after two_rapid_writes (watching sample_disk false "a.md" "").

(** One write taken, received and answered on the connection of the one
    browser; its handler is finished. *)
Definition notified_once : State :=
  after [LListen FirstCycle; LWatcherNew None; LWatcherAdd None; LPreview;
         LGetWebsocket None; LOsEvent write_event;
         LPumpEvent; LRebuild; LListen Orchestrator; LUp Orchestrator 0;
         LWs 0; LWs 0]
        (watching sample_disk false "a.md" "").

(** ** Invariants of watch mode *)

Definition got (c : Conn) : nat :=
  match wpc c with
  | WsGot _ => 1
  | _ => 0
  end.

Record Inv (s : State) : Prop := mkInv {
  (** every write event taken was received as a RebuildEvent, or is the
      one being sent *)
  inv_rebuild : nRebuild s + pending_rebuild s = nWrite s;
  (** every call of [serveContent] but the first comes from a RebuildEvent,
      and a value on [serverUp] from a call that got out of
      [ListenAndServe] *)
  inv_up : nUp s + orch_in_call s = nRebuild s + srv_returned s;
  inv_message : nMessage s + holding (conns s) <= nUp s;
  inv_first : tcp s = PortHeld FirstCycle <-> srv s = SServe Serving;
  inv_orch : tcp s = PortHeld Orchestrator <-> orch s = OServe Serving;
  (** handlers only exist once this process listens *)
  inv_closed : listening s = false -> conns s = [] /\ nUp s = 0;
  (** the event goroutine is started by [fileWatcher] *)
  inv_pump : watcher s = WNew -> pump s = PNotStarted;
  inv_conns : Forall conn_ok (conns s)
}.


(** ** Further bookkeeping *)



(** What watch mode keeps about what is over: nothing returns, and the
    process is only ever ended by [log.Fatal] in [fileWatcher]. *)
Record Alive (s : State) : Prop := mkAlive {
  alive_orch : orch s <> OReturned;
  alive_pump : pump s <> PReturned;
  alive_srv : srv s <> SNotStarted;
  alive_watcher : watcher s <> WNotStarted;
  alive_exit : forall code, exited s = Some code ->
    code = 1%Z /\ (watcher s = WNew \/ watcher s = WAdd)
    /\ exists e tr, trace s = Stderr e :: tr
}.

(** The launcher [preview] picks for an operating system, with the
    parameters that come before the URL. *)
Definition launcher_of (goos cName : string) (pre : list string) : Prop :=
  goos = "linux" /\ cName = "xdg-open" /\ pre = []
  \/ goos = "windows" /\ cName = "cmd.exe" /\ pre = ["/C"; "start"]
  \/ goos = "darwin" /\ cName = "open" /\ pre = [].

(** A platform on which the browser opens. *)
Definition linux_platform : Platform :=
  mkPlatform string "{{ .Body }}"
    (Convert sample_platform) (SanitizeBytes sample_platform)
    (Parse sample_platform) (ParseFiles sample_platform)
    (Execute sample_platform)
    "linux"
    (fun name => Ok ("/usr/bin/" +:+ name))
    (fun _ _ => None).

(** The output path cannot be written. *)
Definition locked_disk : FS := mkFS {[ "a.md" := sample_doc ]} {[ "a.html" ]}.

(** The orchestrator receives a RebuildEvent and binds the port before
    the first cycle has called [ListenAndServe]. *)
Definition orchestrator_first : list Label :=
  [LWatcherNew None; LWatcherAdd None; LPreview; LOsEvent write_event;
   LPumpEvent; LRebuild; LListen Orchestrator].

Definition orchestrator_serving : State :=
  after orchestrator_first (watching sample_disk false "a.md" "").

(** Then another write, the first cycle finds the port taken, and its
    value on [serverUp] is taken by a handler of the orchestrator's
    server. *)
Definition first_cycle_late : list Label :=
  [LOsEvent write_event; LPumpEvent; LListen FirstCycle;
   LGetWebsocket None; LUp FirstCycle 0; LWs 0].

(** Two browsers connected, the second [ListenAndServe] has failed. *)
Definition two_clients : list Label :=
  [LListen FirstCycle; LWatcherNew None; LWatcherAdd None; LPreview;
   LGetWebsocket None; LGetWebsocket None; LOsEvent write_event;
   LPumpEvent; LRebuild; LListen Orchestrator].

Definition two_clients_waiting : State :=
  after two_clients (watching sample_disk false "a.md" "").

(** Another process holds the port throughout; a write comes in and a
    chmod after it. *)
Definition port_taken : list Label :=
  [LListen FirstCycle; LWatcherNew None; LWatcherAdd None; LPreview;
   LOsEvent write_event; LOsEvent chmod_event; LPumpEvent; LRebuild;
   LListen Orchestrator; LPumpEvent].

Definition watch_fails : list Label :=
  [LListen FirstCycle; LWatcherNew None; LPreview;
   LWatcherAdd (Some "no such file or directory")].

(** The files after the changes of a schedule. *)
Fixpoint disk_after (d : FS) (ls : list Label) : FS :=
  match ls with
  | [] => d
  | LDisk d' :: ls' => disk_after d' ls'
  | _ :: ls' => disk_after d ls'
  end.

(** The source is saved empty, then with its text again, while the first
    cycle serves. *)
Definition saved_twice : list Label :=
  [LListen FirstCycle; LPreview; LDisk broken_disk; LDisk sample_disk].

(** * Rendering *)

Section Rendering.
Context (P : Platform).

Lemma parseContent_no_template (fs1 fs2 : FS) (input : bytes) (name : string) :
  parseContent P fs1 input name "" = parseContent P fs2 input name "".
Proof.
  unfold parseContent.
  destruct (decide ("" ≠ "")) as [Hne | _]; [by destruct Hne | reflexivity].
Qed.

Lemma ServeHTTP_ok (fs : FS) (b input html : bytes) (f t : string) :
  ReadFile fs f = Ok input ->
  parseContent P fs input f t = Ok html ->
  ServeHTTP P fs (mkHandler b f t) = [html].
Proof. intros Hr Hp. unfold ServeHTTP. simpl. by rewrite Hr, Hp. Qed.

Lemma ServeHTTP_fail (fs : FS) (b : bytes) (f t : string) :
  (exists e, ReadFile fs f = Err e)
  \/ (exists input e, ReadFile fs f = Ok input
                      /\ parseContent P fs input f t = Err e) ->
  ServeHTTP P fs (mkHandler b f t) = [].
Proof.
  intros [[e Hr] | (input & e & Hr & Hp)]; unfold ServeHTTP; simpl.
  - by rewrite Hr.
  - by rewrite Hr, Hp.
Qed.

End Rendering.

(** C10: with an empty template name [parseContent] does not look at the
    file system: on the same input bytes and the same file name it gives
    the same bytes, or the same error, whatever the files are; so two
    responses of the content endpoint are equal whenever the watched file
    reads the same. *)
Theorem parseContent_deterministic (P : Platform) (fs1 fs2 : FS)
    (input b1 b2 : bytes) (inFilename : string) :
  ReadFile fs1 inFilename = ReadFile fs2 inFilename ->
  parseContent P fs1 input inFilename "" = parseContent P fs2 input inFilename ""
  /\ ServeHTTP P fs1 (mkHandler b1 inFilename "")
     = ServeHTTP P fs2 (mkHandler b2 inFilename "").
Proof.
  intros Hread. split; [apply parseContent_no_template |].
  unfold ServeHTTP. simpl. rewrite Hread.
  destruct (ReadFile fs2 inFilename) as [newInput | e]; [| reflexivity].
  by rewrite (parseContent_no_template P fs1 fs2).
Qed.

Lemma parseContent_deterministic_witness :
  ServeHTTP sample_platform sample_disk (mkHandler [] "a.md" "")
  = ServeHTTP sample_platform other_disk (mkHandler [] "a.md" "").
Proof.
  apply (parseContent_deterministic sample_platform sample_disk other_disk
           sample_doc [] [] "a.md").
  reflexivity.
Defined.

(** C2: one-shot mode.  With an output path that can be written and a
    source that reads and renders, [main] ends with status 0 having
    started nothing and printed nothing, the output path holds the bytes
    [parseContent] returned, and the content endpoint writes the same
    bytes for the same file name and template name; it still does once
    the output file is there, when the output is not the source itself
    and no template file is read. *)
Theorem oneshot_equals_content_endpoint (P : Platform) (d d' : FS) (busy : bool)
    (inFilename outFilename tFname : string) (input html : bytes) :
  inFilename <> "" ->
  outFilename <> "" ->
  ReadFile d inFilename = Ok input ->
  parseContent P d input inFilename tFname = Ok html ->
  saveHTML d outFilename html = Ok d' ->
  main P d busy inFilename outFilename tFname
  = halted d' busy inFilename tFname 0 []
  /\ ReadFile d' outFilename = Ok html
  /\ ServeHTTP P d (mkHandler [] inFilename tFname) = [html]
  /\ (outFilename <> inFilename -> tFname = "" ->
      ServeHTTP P d' (mkHandler [] inFilename tFname) = [html]).
Proof.
  intros Hin Hout Hread Hparse Hsave.
  assert (Hd' : d' = mkFS (<[outFilename := html]> (files d)) (readonly d)).
  { unfold saveHTML, WriteFile in Hsave. by case_decide; simplify_eq. }
  split; [| split; [| split]].
  - unfold main, run. rewrite decide_False by done.
    rewrite Hread, Hparse. rewrite decide_True by done. by rewrite Hsave.
  - subst d'. unfold ReadFile. simpl. by rewrite lookup_insert_eq.
  - by apply ServeHTTP_ok with input.
  - intros Hne ->. apply ServeHTTP_ok with input.
    + subst d'. unfold ReadFile in *. simpl. by rewrite lookup_insert_ne.
    + by rewrite (parseContent_no_template P d' d).
Qed.

Lemma oneshot_equals_content_endpoint_witness :
  exited (main sample_platform sample_disk false "a.md" "a.html" "") = Some 0%Z
  /\ ServeHTTP sample_platform sample_disk (mkHandler [] "a.md" "")
     = [sample_html].
Proof.
  destruct (oneshot_equals_content_endpoint sample_platform sample_disk
              (mkFS (<["a.html" := sample_html]> (files sample_disk)) ∅)
              false "a.md" "a.html" "" sample_doc sample_html)
    as (Hmain & _ & Hserve & _);
    [done | done | reflexivity | reflexivity | reflexivity |].
  split; [by rewrite Hmain | exact Hserve].
Defined.

(** C5: a request to the content endpoint while the watched file does not
    read or does not render writes nothing and changes nothing else: the
    process has not exited, the port is still bound, every goroutine is
    where it was.  Once the files are such that the source reads and
    renders, the next request writes the rendered page. *)
Theorem content_endpoint_failure_then_recovery (P : Platform) (s : State) :
  exited s = None ->
  listening s = true ->
  ((exists e, ReadFile (disk s) (file s) = Err e)
   \/ (exists input e, ReadFile (disk s) (file s) = Ok input
         /\ parseContent P (disk s) input (file s) (tmpl s) = Err e)) ->
  let s1 := emit (ObsResponse []) s in
  step P LGetContent s = Some s1
  /\ exited s1 = None /\ listening s1 = true
  /\ orch s1 = orch s /\ srv s1 = srv s /\ conns s1 = conns s
  /\ forall (d' : FS) (input html : bytes),
       ReadFile d' (file s) = Ok input ->
       parseContent P d' input (file s) (tmpl s) = Ok html ->
       exec P [LDisk d'; LGetContent] s1
       = Some (emit (ObsResponse [html]) (set_disk d' s1)).
Proof.
  intros Hex Hl Hfail s1.
  split; [| repeat split; try done].
  - unfold step. rewrite Hex, Hl.
    by rewrite (ServeHTTP_fail P _ _ _ _ Hfail).
  - intros d' input html Hr Hp. simpl. unfold step. simpl.
    rewrite Hex. unfold listening in *. simpl. rewrite Hex.
    destruct (tcp s); try done.
    by rewrite (ServeHTTP_ok P d' [] input html (file s) (tmpl s)).
Qed.

Lemma content_endpoint_failure_then_recovery_witness :
  step sample_platform LGetContent broken_serving
  = Some (emit (ObsResponse []) broken_serving)
  /\ exec sample_platform [LDisk sample_disk; LGetContent]
       (emit (ObsResponse []) broken_serving)
     = Some (emit (ObsResponse [sample_html])
               (set_disk sample_disk (emit (ObsResponse []) broken_serving))).
Proof.
  destruct (content_endpoint_failure_then_recovery sample_platform broken_serving)
    as (H1 & _ & _ & _ & _ & _ & H2).
  - reflexivity.
  - reflexivity.
  - right. exists [], "empty document". split; reflexivity.
  - split; [exact H1 |]. apply (H2 sample_disk sample_doc sample_html); reflexivity.
Defined.

(** * Startup *)

(** C6: when the input file cannot be read, or its first render fails,
    [main] ends with status 1 and the error on the error stream, with no
    goroutine started and the port untouched, and nothing runs afterwards.
    In watch mode a failure of [fsnotify.NewWatcher] or of [watcher.Add]
    is [log.Fatal]: the error on the error stream, status 1, and no step
    of any goroutine after it. *)
Theorem fatal_startup_errors (P : Platform) (d : FS) (busy : bool)
    (inFilename outFilename tFname : string) (e e' : error)
    (s : State) (l : Label) :
  inFilename <> "" ->
  (ReadFile d inFilename = Err e
   \/ exists input, ReadFile d inFilename = Ok input
        /\ parseContent P d input inFilename tFname = Err e) ->
  exited s = None ->
  (watcher s = WNew /\ l = LWatcherNew (Some e')
   \/ watcher s = WAdd /\ l = LWatcherAdd (Some e')) ->
  let s0 := main P d busy inFilename outFilename tFname in
  (exited s0 = Some 1%Z /\ trace s0 = [Stderr e]
   /\ watcher s0 = WNotStarted /\ pump s0 = PNotStarted /\ srv s0 = SNotStarted
   /\ tcp s0 = port0 busy /\ disk s0 = d
   /\ forall l0, step P l0 s0 = None)
  /\ (step P l s = Some (log_Fatal e' s)
      /\ exited (log_Fatal e' s) = Some 1%Z
      /\ trace (log_Fatal e' s) = Stderr e' :: trace s
      /\ forall l0, step P l0 (log_Fatal e' s) = None).
Proof.
  intros Hin Hfail Hex Hw s0. split.
  - assert (Hs0 : s0 = halted d busy inFilename tFname 1 [Stderr e]).
    { unfold s0, main, run. rewrite decide_False by done.
      destruct Hfail as [Hr | (input & Hr & Hp)].
      - by rewrite Hr.
      - by rewrite Hr, Hp. }
    rewrite Hs0. by repeat split.
  - repeat split; try done.
    unfold step. rewrite Hex.
    by destruct Hw as [[-> ->] | [-> ->]].
Qed.

Lemma fatal_startup_errors_witness :
  exited (main sample_platform broken_disk false "a.md" "" "") = Some 1%Z
  /\ step sample_platform (LWatcherNew (Some "too many open files"))
       (watching sample_disk false "a.md" "")
     = Some (log_Fatal "too many open files" (watching sample_disk false "a.md" "")).
Proof.
  destruct (fatal_startup_errors sample_platform broken_disk false "a.md" "" ""
              "empty document" "too many open files"
              (watching sample_disk false "a.md" "")
              (LWatcherNew (Some "too many open files")))
    as ((H1 & _) & (H2 & _)).
  - done.
  - right. exists []. split; reflexivity.
  - reflexivity.
  - left. split; reflexivity.
  - split; [exact H1 | exact H2].
Defined.

(** * The file watcher *)

(** C7: the event goroutine, in its select, takes the next event of the
    queue and goes to [rebuild <- true] exactly when the event has the
    write flag; otherwise it is back in the select with nothing else
    changed.  A blocked send is taken by the orchestrator as soon as it is
    on [range rebuild], as one more RebuildEvent.  An error of the error
    queue is logged and the goroutine is back in the select: no exit, the
    watcher and the event queue as they were. *)
Theorem fileWatcher_write_events_only (P : Platform) (s : State) :
  exited s = None ->
  pump s = PSelect ->
  (forall (e : Event) (q : list Event), evq s = e :: q ->
     exists s', step P LPumpEvent s = Some s'
       /\ (pump s' = PSend <-> Has e Write = true)
       /\ (Has e Write = false -> pump s' = PSelect)
       /\ evq s' = q /\ exited s' = None
       /\ watcher s' = watcher s /\ orch s' = orch s
       /\ nRebuild s' = nRebuild s
       /\ (Has e Write = true -> orch s = ORange ->
           exists s'', step P LRebuild s' = Some s''
             /\ nRebuild s'' = S (nRebuild s) /\ pump s'' = PSelect))
  /\ (forall (err : error) (q : list error), errq s = err :: q ->
     exists s', step P LPumpError s = Some s'
       /\ trace s' = Stderr ("error: " +:+ err) :: trace s
       /\ pump s' = PSelect /\ errq s' = q /\ evq s' = evq s
       /\ exited s' = None /\ watcher s' = watcher s).
Proof.
  intros Hex Hp. split.
  - intros e q Hq. eexists. split.
    { unfold step. rewrite Hex, Hp, Hq. reflexivity. }
    simpl. unfold fileWatcher_event. simpl.
    destruct (Has e Write) eqn:Hw; repeat split; try done.
    intros _ Ho. eexists. split.
    { unfold step. simpl. rewrite Hex, Ho. reflexivity. }
    by split.
  - intros err q Hq. eexists. split.
    { unfold step. rewrite Hex, Hp, Hq. reflexivity. }
    by repeat split.
Qed.


Lemma fileWatcher_write_events_only_witness :
  exists s', step sample_platform LPumpEvent events_queued = Some s'
             /\ pump s' = PSelect /\ evq s' = [write_event].
Proof.
  destruct (fileWatcher_write_events_only sample_platform events_queued)
    as [Hev _]; [reflexivity | reflexivity |].
  destruct (Hev chmod_event [write_event] eq_refl)
    as (s' & Hstep & _ & Hno & Hq & _).
  exists s'. split; [exact Hstep | split; [apply Hno; reflexivity | exact Hq]].
Defined.

(** * The orchestrator *)

(** C8 (amended): whatever [preview] returns is dropped by [run]: nothing
    is printed, the orchestrator goes on to [range rebuild] with every
    other goroutine as it was, and receives the RebuildEvent offered to
    it. *)
Theorem preview_failure_dropped (P : Platform) (s : State) (err : error) :
  exited s = None ->
  orch s = OPreview ->
  preview P host = Some err ->
  exists s', step P LPreview s = Some s'
    /\ trace s' = ObsPreview (Some err) :: trace s
    /\ visible (trace s') = visible (trace s)
    /\ exited s' = None /\ orch s' = ORange
    /\ pump s' = pump s /\ watcher s' = watcher s /\ srv s' = srv s
    /\ tcp s' = tcp s
    /\ (pump s' = PSend ->
        exists s'', step P LRebuild s' = Some s'' /\ orch s'' = OServe Listen).
Proof.
  intros Hex Ho Hprev. eexists. split.
  { unfold step. rewrite Hex, Ho, Hprev. reflexivity. }
  simpl. repeat split; try done.
  intros Hp. eexists. split.
  { unfold step. simpl. rewrite Hex, Hp. reflexivity. }
  reflexivity.
Qed.

Lemma preview_failure_dropped_witness :
  exists s', step sample_platform LPreview (watching sample_disk false "a.md" "")
             = Some s'
             /\ orch s' = ORange.
Proof.
  destruct (preview_failure_dropped sample_platform
              (watching sample_disk false "a.md" "") "OS not supported")
    as (s' & Hstep & _ & _ & _ & Ho & _);
    [reflexivity | reflexivity | reflexivity |].
  exists s'. split; [exact Hstep | exact Ho].
Defined.

(** C8 as the specification has it fails: on an operating system
    [preview] does not support it returns an error, and after the call the
    terminal shows the listening line and nothing else. *)
Lemma preview_failure_not_reported :
  preview sample_platform host = Some "OS not supported"
  /\ exists s', step sample_platform LPreview (watching sample_disk false "a.md" "")
                = Some s'
       /\ visible (trace s')
          = [Stdout "Server listening on http://localhost:5052/content"]
       /\ ~ exists line, Stderr line ∈ trace s'.
Proof.
  split; [reflexivity |].
  eexists. split; [reflexivity |]. split; [reflexivity |].
  intros [line Hin]. simpl in Hin.
  repeat (apply elem_of_cons in Hin as [Hin | Hin]; [discriminate |]).
  by apply elem_of_nil in Hin.
Qed.

(** * Steps of the interleaving *)

Ltac inv_step H :=
  unfold step, log_Fatal, serveContent, fileWatcher_event, fileWatcher_error, ws in H;
  repeat case_match; simplify_eq/=.

Section Steps.
Context (P : Platform).

Lemma step_not_exited (l : Label) (s s' : State) :
  step P l s = Some s' -> exited s = None.
Proof. unfold step. by destruct (exited s). Qed.

(** A port bound by this process stays bound: no step closes a
    listener. *)
Lemma step_port_held (l : Label) (s s' : State) (w : Who) :
  step P l s = Some s' -> tcp s = PortHeld w -> tcp s' = PortHeld w.
Proof. intros H Ht. inv_step H; congruence. Qed.

Lemma step_rebuild (s s' : State) :
  step P LRebuild s = Some s' ->
  orch s = ORange /\ pump s = PSend /\ orch s' = OServe Listen
  /\ nRebuild s' = S (nRebuild s).
Proof. intros H. by inv_step H. Qed.

(** The orchestrator arrives at [serverUp <- true] only out of a
    [ListenAndServe] that found the port taken. *)
Lemma step_reaches_send (l : Label) (s s' : State) :
  step P l s = Some s' ->
  orch s' = OServe SendUp ->
  orch s <> OServe SendUp ->
  l = LListen Orchestrator /\ orch s = OServe Listen /\ tcp s <> PortFree
  /\ trace s' = ObsBind Orchestrator false :: trace s.
Proof. intros H Ho Hn. inv_step H; try congruence; by repeat split. Qed.

(** Blocked on [serverUp <- true], the orchestrator only moves by handing
    the value to a handler. *)
Lemma step_blocked_on_send (l : Label) (s s' : State) :
  orch s = OServe SendUp ->
  step P l s = Some s' ->
  (orch s' = OServe SendUp /\ nRebuild s' = nRebuild s)
  \/ (exists i o, l = LUp Orchestrator i
        /\ conns s !! i = Some (mkConn WsWait o) /\ orch s' = ORange).
Proof.
  intros Ho H. inv_step H; try congruence; try (by left).
  right. by eexists _, _.
Qed.

Lemma exec_blocked_on_send (ls : list Label) (s s' : State) :
  orch s = OServe SendUp ->
  exec P ls s = Some s' ->
  (forall i, LUp Orchestrator i ∉ ls) ->
  orch s' = OServe SendUp /\ nRebuild s' = nRebuild s.
Proof.
  revert s. induction ls as [| l ls IH]; intros s Ho Hx Hno.
  - by simplify_eq/=.
  - simpl in Hx. destruct (step P l s) as [s1 |] eqn:Hs; [| done].
    destruct (step_blocked_on_send l s s1 Ho Hs) as [[Ho1 Hn1] | (i & o & -> & _)].
    + rewrite <- Hn1. apply IH; [done | done |].
      intros i Hin. apply (Hno i). by right.
    + destruct (Hno i). by left.
Qed.

End Steps.

(** C9: while the orchestrator is blocked on [serverUp <- true] and no
    handler waits on [<-serverUp], the value cannot be handed over and no
    RebuildEvent can be received; whatever the other goroutines and the
    environment do, as long as no handler takes the value the orchestrator
    is still there and has received no further RebuildEvent; and the one
    step that frees it is the hand-over to a handler that was waiting,
    which sends it back to [range rebuild]. *)
Theorem serverUp_send_blocks_orchestrator (P : Platform) (s : State) :
  orch s = OServe SendUp ->
  (forall i c, conns s !! i = Some c -> wpc c <> WsWait) ->
  (forall w i, step P (LUp w i) s = None)
  /\ step P LRebuild s = None
  /\ (forall ls s', exec P ls s = Some s' ->
        (forall i, LUp Orchestrator i ∉ ls) ->
        orch s' = OServe SendUp /\ nRebuild s' = nRebuild s)
  /\ (forall l s', step P l s = Some s' -> orch s' <> OServe SendUp ->
        exists i o, l = LUp Orchestrator i
          /\ conns s !! i = Some (mkConn WsWait o) /\ orch s' = ORange).
Proof.
  intros Ho Hnone. split; [| split; [| split]].
  - intros w i. unfold step. destruct (exited s); [done |].
    destruct (conns s !! i) as [[pc o] |] eqn:Hc; [| done].
    specialize (Hnone i _ Hc). simpl in Hnone. by destruct pc.
  - unfold step. destruct (exited s); [done |]. by rewrite Ho.
  - intros ls s' Hx Hno. by apply (exec_blocked_on_send P ls s s').
  - intros l s' Hs Hn.
    by destruct (step_blocked_on_send P l s s' Ho Hs) as [[? _] | ?].
Qed.


Lemma serverUp_send_blocks_orchestrator_witness :
  step sample_platform LRebuild blocked_no_client = None
  /\ pump blocked_no_client = PSend.
Proof.
  destruct (serverUp_send_blocks_orchestrator sample_platform blocked_no_client)
    as (_ & H & _).
  - reflexivity.
  - intros i c Hc. vm_compute in Hc. discriminate Hc.
  - split; [exact H | reflexivity].
Defined.

(** C1: in watch mode every RebuildEvent the orchestrator receives puts it
    at the start of [serveContent]; with the port held by the listener of
    the first cycle (and it stays held, no step unbinds it)
    [ListenAndServe] fails and the orchestrator is at [serverUp <- true];
    a handler waiting on [<-serverUp] takes the value and writes
    [build_complete] to its connection.  The orchestrator gets to that send
    in no other way than through a [ListenAndServe] that found the port
    taken. *)
Theorem rebuild_event_notifies_client (P : Platform) (s : State) (i : nat)
    (o : list ConnOp) :
  exited s = None ->
  orch s = ORange ->
  pump s = PSend ->
  tcp s = PortHeld FirstCycle ->
  conns s !! i = Some (mkConn WsWait o) ->
  (exists s1 s2 s3 s4,
     step P LRebuild s = Some s1 /\ orch s1 = OServe Listen
     /\ step P (LListen Orchestrator) s1 = Some s2
     /\ orch s2 = OServe SendUp
     /\ trace s2 = ObsBind Orchestrator false :: trace s1
     /\ tcp s2 = PortHeld FirstCycle
     /\ step P (LUp Orchestrator i) s2 = Some s3
     /\ orch s3 = ORange
     /\ conns s3 !! i = Some (mkConn (WsGot true) o)
     /\ step P (LWs i) s3 = Some s4
     /\ conns s4 !! i = Some (mkConn WsDefer (o ++ [OpWriteJSON build_complete]))
     /\ trace s4 = ObsWs i (OpWriteJSON build_complete) :: trace s3)
  /\ (forall t t', step P LRebuild t = Some t' -> orch t' = OServe Listen)
  /\ (forall l t t' w, step P l t = Some t' ->
        tcp t = PortHeld w -> tcp t' = PortHeld w)
  /\ (forall l t t', step P l t = Some t' ->
        orch t' = OServe SendUp -> orch t <> OServe SendUp ->
        l = LListen Orchestrator /\ tcp t <> PortFree
        /\ trace t' = ObsBind Orchestrator false :: trace t).
Proof.
  intros Hex Ho Hp Ht Hc.
  assert (Hi : i < length (conns s)) by (by eapply lookup_lt_Some).
  split; [| split; [| split]].
  - eexists _, _, _, _.
    split. { unfold step. rewrite Hex, Ho, Hp. reflexivity. }
    split; [reflexivity |].
    split. { unfold step. simpl. rewrite Hex, Ht. reflexivity. }
    split; [reflexivity |]. split; [reflexivity |]. split; [reflexivity |].
    split. { unfold step. simpl. rewrite Hex, Hc. reflexivity. }
    split; [reflexivity |].
    split. { simpl. by apply list_lookup_insert_eq. }
    split.
    { unfold step. simpl. rewrite Hex.
      rewrite list_lookup_insert_eq by done. simpl. reflexivity. }
    simpl. split; [| reflexivity].
    rewrite list_insert_insert_eq. by apply list_lookup_insert_eq.
  - intros t t' H. by apply step_rebuild in H as (_ & _ & ? & _).
  - intros l t t' w. apply step_port_held.
  - intros l t t' H H1 H2.
    by destruct (step_reaches_send P l t t' H H1 H2) as (? & _ & ? & ?).
Qed.


Lemma rebuild_event_notifies_client_witness :
  exists s4,
    exec sample_platform
         [LRebuild; LListen Orchestrator; LUp Orchestrator 0; LWs 0]
         client_waiting = Some s4
    /\ conns s4 !! 0 = Some (mkConn WsDefer [OpWriteJSON build_complete]).
Proof.
  destruct (rebuild_event_notifies_client sample_platform client_waiting 0 [])
    as ((s1 & s2 & s3 & s4 & H1 & _ & H2 & _ & _ & _ & H3 & _ & _ & H4 & Hc & _) & _);
    [reflexivity | reflexivity | reflexivity | reflexivity | reflexivity |].
  exists s4. split; [| exact Hc].
  cbn [exec]. rewrite H1, H2, H3, H4. reflexivity.
Defined.

(** * Invariants of watch mode *)

Lemma holding_app (cs : list Conn) (c : Conn) :
  holding (cs ++ [c]) = holding cs + got c.
Proof.
  induction cs as [| c0 cs IH]; simpl; [unfold got; lia |].
  rewrite IH. lia.
Qed.

Lemma holding_insert (cs : list Conn) (i : nat) (c c' : Conn) :
  cs !! i = Some c ->
  holding (<[i := c']> cs) + got c = holding cs + got c'.
Proof.
  revert i. induction cs as [| c0 cs IH]; intros [| i] H; simplify_eq/=.
  - unfold got. lia.
  - specialize (IH i H). lia.
Qed.

Ltac unfold_counters :=
  unfold nRebuild, nWrite, nUp, nMessage, pending_rebuild, orch_in_call,
    srv_returned, listening in *.

Ltac use_pcs :=
  repeat match goal with
  | H : orch _ = _ |- _ => rewrite H in *; clear H
  | H : srv _ = _ |- _ => rewrite H in *; clear H
  | H : pump _ = _ |- _ => rewrite H in *; clear H
  | H : watcher _ = _ |- _ => rewrite H in *; clear H
  | H : tcp _ = _ |- _ => rewrite H in *; clear H
  | H : Has _ _ = _ |- _ => rewrite H in *; clear H
  end.

(** What the invariant says of the handler at a position. *)
Ltac use_conn :=
  match goal with
  | Hl : conns ?s !! ?i = Some ?c, HF : Forall conn_ok (conns ?s) |- _ =>
    let Hok := fresh "Hok" in
    pose proof (proj1 (Forall_lookup _ _) HF i c Hl) as Hok;
    unfold conn_ok in Hok; simpl in Hok
  end.

Ltac use_holding :=
  match goal with
  | Hl : conns ?s !! ?i = Some ?c |- context [holding (<[?i := ?c']> (conns ?s))] =>
    let Hh := fresh "Hh" in
    pose proof (holding_insert (conns s) i c c' Hl) as Hh;
    unfold got in Hh; simpl in Hh
  end.

Section Invariants.
Context (P : Platform).

Lemma Inv_watching (d : FS) (busy : bool) (f t : string) :
  Inv (watching d busy f t).
Proof. constructor; try done; simpl; by destruct busy. Qed.

Lemma Inv_step (l : Label) (s s' : State) :
  Inv s -> step P l s = Some s' -> Inv s'.
Proof.
  intros HI H.
  inv_step H.
  all: destruct HI as [I1 I2 I3 I4 I5 I6 I7 I8]; constructor;
    unfold_counters; simpl in *; use_pcs; simpl in *.
  all: try lia.
  all: try (intuition congruence).
  all: try (rewrite I7 in * by done; lia).
  all: try (use_holding; try use_conn; repeat case_match; simplify_eq/=; lia).
  all: try (rewrite holding_app; unfold got; simpl; lia).
  all: try (intros Hf; apply I6 in Hf as [Hnil _]; rewrite Hnil in *; done).
  all: try (apply Forall_app; split; [done | by repeat constructor]).
  all: use_conn; apply Forall_insert; [done |]; unfold conn_ok; simpl;
       repeat case_match; simplify_eq/=; try done; by rewrite Hok.
Qed.

Lemma Inv_exec (ls : list Label) (s s' : State) :
  Inv s -> exec P ls s = Some s' -> Inv s'.
Proof.
  revert s. induction ls as [| l ls IH]; intros s HI Hx; simplify_eq/=; [done |].
  destruct (step P l s) as [s1 |] eqn:Hs; [| done].
  eapply IH; [| done]. by eapply Inv_step.
Qed.

(** Messages, values on [serverUp], RebuildEvents and write events. *)
Lemma Inv_bounds (s : State) :
  Inv s -> nMessage s <= nUp s /\ nUp s <= nRebuild s /\ nRebuild s <= nWrite s.
Proof.
  intros [I1 I2 I3 I4 I5 I6 I7 I8]. split; [lia |]. split; [| lia].
  unfold orch_in_call, srv_returned, listening in *.
  destruct (tcp s) as [| [] |] eqn:Ht.
  - destruct (I6 eq_refl) as [_ Hu]. lia.
  - assert (Ho : orch s = OServe Serving) by (by apply I5).
    rewrite Ho in I2. destruct (srv s); lia.
  - assert (Hs : srv s = SServe Serving) by (by apply I4).
    rewrite Hs in I2. lia.
  - destruct (I6 eq_refl) as [_ Hu]. lia.
Qed.



End Invariants.

(** * Counting and the WebSocket protocol *)




(** C3 (amended): on a connection on which the server has written
    [build_complete], that message is all it ever writes, and the handler
    then closes the connection with [Conn.Close], which puts no close
    frame on the wire: the frames sent are the one text frame, with no
    status and no reason after it.  The handler at the deferred close does
    close, and a finished handler does nothing more. *)
Theorem ws_one_message_then_close (P : Platform) (d : FS) (busy : bool)
    (f t : string) (ls : list Label) (s : State) (i : nat) (c : Conn) :
  exec P ls (watching d busy f t) = Some s ->
  conns s !! i = Some c ->
  OpWriteJSON build_complete ∈ ops c ->
  (wpc c = WsDefer /\ ops c = [OpWriteJSON build_complete]
   \/ wpc c = WsDone /\ ops c = [OpWriteJSON build_complete; OpClose])
  /\ frames (ops c) = [TextFrame (JObject [("type", "build_complete")])]
  /\ (forall code reason, CloseFrame code reason ∉ frames (ops c))
  /\ (wpc c = WsDefer -> exited s = None ->
      exists s', step P (LWs i) s = Some s'
        /\ conns s' !! i
           = Some (mkConn WsDone [OpWriteJSON build_complete; OpClose]))
  /\ (wpc c = WsDone -> step P (LWs i) s = None).
Proof.
  intros Hx Hc Hin.
  pose proof (Inv_exec P ls _ s (Inv_watching d busy f t) Hx) as HI.
  pose proof (proj1 (Forall_lookup _ _) (inv_conns s HI) i c Hc) as Hok.
  unfold conn_ok in Hok.
  assert (Hcases : wpc c = WsDefer /\ ops c = [OpWriteJSON build_complete]
            \/ wpc c = WsDone /\ ops c = [OpWriteJSON build_complete; OpClose]).
  { destruct (wpc c) as [| [|] | |]; try done; try (by left); try (by right);
      rewrite Hok in Hin; by apply elem_of_nil in Hin. }
  split; [exact Hcases |].
  assert (Hfr : frames (ops c) = [TextFrame (JObject [("type", "build_complete")])]).
  { by destruct Hcases as [[_ ->] | [_ ->]]. }
  split; [exact Hfr |]. split; [| split].
  - intros code reason. rewrite Hfr. intros Hcl.
    apply elem_of_cons in Hcl as [Hcl | Hcl]; [discriminate |].
    by apply elem_of_nil in Hcl.
  - intros Hpc Hex. destruct Hcases as [[_ Hops] | [Hpc' _]]; [| congruence].
    eexists. split.
    { unfold step, ws. rewrite Hex, Hc, Hpc. reflexivity. }
    simpl. rewrite Hops. apply list_lookup_insert_eq. by eapply lookup_lt_Some.
  - intros Hpc. unfold step, ws. destruct (exited s); [done |].
    by rewrite Hc, Hpc.
Qed.


Lemma ws_one_message_then_close_witness :
  frames [OpWriteJSON build_complete; OpClose]
  = [TextFrame (JObject [("type", "build_complete")])]
  /\ step sample_platform (LWs 0) notified_once = None.
Proof.
  destruct (ws_one_message_then_close sample_platform sample_disk false "a.md" ""
              [LListen FirstCycle; LWatcherNew None; LWatcherAdd None; LPreview;
               LGetWebsocket None; LOsEvent write_event;
               LPumpEvent; LRebuild; LListen Orchestrator; LUp Orchestrator 0;
               LWs 0; LWs 0]
              notified_once 0 (mkConn WsDone [OpWriteJSON build_complete; OpClose]))
    as (_ & Hfr & _ & _ & Hdone).
  - vm_compute. reflexivity.
  - vm_compute. reflexivity.
  - simpl. by left.
  - split; [exact Hfr | by apply Hdone].
Defined.

(** C3 as the specification has it fails: the handler that wrote
    [build_complete] and finished has closed its connection without any
    close frame, so without status 1000 and without a reason. *)
Lemma ws_closes_without_status :
  exists c, conns notified_once !! 0 = Some c
    /\ wpc c = WsDone
    /\ ops c = [OpWriteJSON build_complete; OpClose]
    /\ ~ exists reason, CloseFrame CloseNormalClosure reason ∈ frames (ops c).
Proof.
  exists (mkConn WsDone [OpWriteJSON build_complete; OpClose]).
  split; [vm_compute; reflexivity |]. split; [reflexivity |]. split; [reflexivity |].
  intros [reason Hin]. simpl in Hin.
  apply elem_of_cons in Hin as [Hin | Hin]; [discriminate |].
  by apply elem_of_nil in Hin.
Qed.

(** * Further properties: the sequential functions *)

Ltac break_hyps :=
  repeat match goal with
  | H : _ /\ _ |- _ => destruct H
  | H : exists _, _ |- _ => destruct H
  end; simplify_eq.

(** The four parts of a statement on how [main] ends. *)
Ltac outcomes := split; [split | split; [split | split]].

(** X16: [parseContent] succeeds exactly when the source converts, the
    built-in template parses (also when another template is named), the
    named template, if any, parses, and the template that is used, the
    named one if any, executes on the file name, the fixed title and the
    sanitized conversion. *)
Theorem parseContent_ok_iff (P : Platform) (fs : FS) (input html : bytes)
    (inFilename tFname : string) :
  parseContent P fs input inFilename tFname = Ok html <->
  exists (output : bytes) (t0 t : Template P),
    Convert P input = Ok output
    /\ Parse P "mdp" (defaultTemplate P) = Ok t0
    /\ (tFname = "" /\ t = t0 \/ tFname <> "" /\ ParseFiles P fs tFname = Ok t)
    /\ Execute P t (mkContent inFilename "Markdown Preview Tool"
                      (SanitizeBytes P output)) = Ok html.
Proof.
  unfold parseContent, rbind. split.
  - destruct (Convert P input) as [output |]; [| done].
    destruct (Parse P "mdp" (defaultTemplate P)) as [t0 |]; [| done].
    destruct (decide (tFname <> "")) as [Hne | Heq].
    + destruct (ParseFiles P fs tFname) as [t |] eqn:Hpf; [| done].
      destruct (Execute P t _) as [buffer |] eqn:Hx; [| done].
      intros [= <-]. exists output, t0, t. by repeat split; [right |].
    + apply dec_stable in Heq.
      destruct (Execute P t0 _) as [buffer |] eqn:Hx; [| done].
      intros [= <-]. exists output, t0, t0. by repeat split; [left |].
  - intros (output & t0 & t & -> & -> & Ht & Hx).
    destruct Ht as [[-> ->] | [Hne Hpf]].
    + rewrite decide_False by (by intros H). by rewrite Hx.
    + rewrite decide_True by done. by rewrite Hpf, Hx.
Qed.

(** X1: how [main] ends, for every command line and every file system.
    It goes on to watch mode exactly when an input file is named, no
    output file is, and the input reads and renders; it ends with status 0
    exactly when both are named and the input reads, renders and is
    saved; in every other case it ends with status 1. *)
Theorem main_outcomes (P : Platform) (d : FS) (busy : bool)
    (inFilename outFilename tFname : string) :
  let s := main P d busy inFilename outFilename tFname in
  (exited s = None <->
     inFilename <> "" /\ outFilename = ""
     /\ exists input html, ReadFile d inFilename = Ok input
          /\ parseContent P d input inFilename tFname = Ok html)
  /\ (exited s = Some 0%Z <->
     inFilename <> "" /\ outFilename <> ""
     /\ exists input html d', ReadFile d inFilename = Ok input
          /\ parseContent P d input inFilename tFname = Ok html
          /\ saveHTML d outFilename html = Ok d')
  /\ (exited s = None \/ exited s = Some 0%Z \/ exited s = Some 1%Z)
  /\ (exited s = None -> s = watching d busy inFilename tFname).
Proof.
  unfold main, run. cbv zeta.
  destruct (decide (inFilename = "")) as [-> | Hin]; simpl.
  { outcomes; intros; break_hyps; first [done | congruence | by (right; right)]. }
  destruct (ReadFile d inFilename) as [input | e] eqn:Hr; simpl.
  2: { outcomes; intros; break_hyps; first [done | congruence | by (right; right)]. }
  destruct (parseContent P d input inFilename tFname) as [html | e] eqn:Hp;
    simpl.
  2: { outcomes; intros; break_hyps; first [done | congruence | by (right; right)]. }
  destruct (decide (outFilename <> "")) as [Hout | Hout]; simpl.
  - destruct (saveHTML d outFilename html) as [d' | e] eqn:Hs; simpl.
    + outcomes; intros; break_hyps; try done; try (by (right; left)).
      split; [done |]. split; [done |]. by exists input, html, d'.
    + outcomes; intros; break_hyps; first [done | congruence | by (right; right)].
  - apply dec_stable in Hout. subst outFilename.
    outcomes; intros; break_hyps; try done; try (by left).
    split; [done |]. split; [done |]. by exists input, html.
Qed.

(** X2: in one-shot mode a refused write is fatal: [main] ends with status
    1 and the error of [saveHTML] on the error stream, the files are as
    they were, and nothing was started or printed besides. *)
Theorem oneshot_write_failure (P : Platform) (d : FS) (busy : bool)
    (inFilename outFilename tFname : string) (input html : bytes) (e : error) :
  inFilename <> "" ->
  outFilename <> "" ->
  ReadFile d inFilename = Ok input ->
  parseContent P d input inFilename tFname = Ok html ->
  saveHTML d outFilename html = Err e ->
  let s := main P d busy inFilename outFilename tFname in
  exited s = Some 1%Z /\ trace s = [Stderr e] /\ disk s = d
  /\ watcher s = WNotStarted /\ srv s = SNotStarted /\ tcp s = port0 busy
  /\ forall l, step P l s = None.
Proof.
  intros Hin Hout Hr Hp Hs s.
  assert (Hm : s = halted d busy inFilename tFname 1 [Stderr e]).
  { unfold s, main, run. rewrite decide_False by done.
    rewrite Hr, Hp. rewrite decide_True by done. by rewrite Hs. }
  rewrite Hm. by repeat split.
Qed.

Lemma oneshot_write_failure_witness :
  exited (main sample_platform locked_disk false "a.md" "a.html" "") = Some 1%Z
  /\ disk (main sample_platform locked_disk false "a.md" "a.html" "") = locked_disk.
Proof.
  destruct (oneshot_write_failure sample_platform locked_disk false
              "a.md" "a.html" "" sample_doc sample_html
              "open a.html: permission denied")
    as (H1 & _ & H2 & _);
    [done | done | reflexivity | reflexivity | reflexivity |].
  split; [exact H1 | exact H2].
Defined.

(** X3: watch mode only starts on a source that rendered: when [main] goes
    on to watch mode, the terminal shows the listening line, whether the
    port is free or not, and a request to the content endpoint on the
    files as they are writes a page. *)
Theorem watch_mode_starts_rendered (P : Platform) (d : FS) (busy : bool)
    (inFilename outFilename tFname : string) :
  exited (main P d busy inFilename outFilename tFname) = None ->
  let s := main P d busy inFilename outFilename tFname in
  trace s = [Stdout "Server listening on http://localhost:5052/content"]
  /\ file s = inFilename /\ tmpl s = tFname /\ disk s = d
  /\ exists html, ServeHTTP P (disk s) (mkHandler [] (file s) (tmpl s)) = [html].
Proof.
  intros Hex s.
  destruct (main_outcomes P d busy inFilename outFilename tFname)
    as (Hwatch & _ & _ & Hs).
  apply Hwatch in Hex as Hok. destruct Hok as (_ & _ & input & html & Hr & Hp).
  unfold s. rewrite (Hs Hex). simpl.
  repeat split. exists html. by apply ServeHTTP_ok with input.
Qed.

Lemma watch_mode_starts_rendered_witness :
  exists html, ServeHTTP sample_platform sample_disk (mkHandler [] "a.md" "") = [html].
Proof.
  destruct (watch_mode_starts_rendered sample_platform sample_disk true "a.md" "" "")
    as (_ & _ & _ & _ & H); [reflexivity |].
  exact H.
Defined.

(** X4: [preview] returns no error exactly when the operating system is
    linux, windows or darwin, the launcher of that system is found by
    [exec.LookPath], and running it, at the path found, on its fixed
    parameters followed by the URL, succeeds. *)
Theorem preview_succeeds_iff (P : Platform) (fname : string) :
  preview P fname = None <->
  exists (cName cPath : string) (pre : list string),
    launcher_of (GOOS P) cName pre
    /\ LookPath P cName = Ok cPath
    /\ RunCommand P cPath (pre ++ [fname]) = None.
Proof.
  unfold preview, launcher_of. split.
  - repeat case_decide; try done.
    + destruct (LookPath P "xdg-open") as [cPath |] eqn:Hl; [| done].
      intros Hrun. exists "xdg-open", cPath, []. split; [by left | done].
    + destruct (LookPath P "cmd.exe") as [cPath |] eqn:Hl; [| done].
      intros Hrun. exists "cmd.exe", cPath, ["/C"; "start"].
      split; [by right; left | done].
    + destruct (LookPath P "open") as [cPath |] eqn:Hl; [| done].
      intros Hrun. exists "open", cPath, []. split; [by right; right | done].
  - intros (cName & cPath & pre & Hos & Hl & Hrun).
    destruct Hos as [(Hg & -> & ->) | [(Hg & -> & ->) | (Hg & -> & ->)]];
      rewrite Hg; simpl; by rewrite Hl.
Qed.

(** X14: which events make the event goroutine send on [rebuild]: those
    whose mask has bit 1, the write flag, set, whatever other flags come
    with it (a write together with a chmod counts, a chmod alone does
    not); every other event sends it back to the select. *)
Theorem fileWatcher_event_write_bit (e : Event) :
  (fileWatcher_event e true = PSend <-> N.testbit (EOp e) 1 = true)
  /\ (fileWatcher_event e true = PSelect <-> N.testbit (EOp e) 1 = false).
Proof.
  unfold fileWatcher_event, Has, Write. simpl.
  destruct (EOp e) as [| [[p | p |] | [p | p |] |]]; simpl; by repeat split.
Qed.

(** * Further properties: watch mode *)

Section WatchMode.
Context (P : Platform).

Lemma Alive_watching (d : FS) (busy : bool) (f t : string) :
  Alive (watching d busy f t).
Proof. by constructor. Qed.

Lemma Alive_step (l : Label) (s s' : State) :
  Alive s -> step P l s = Some s' -> Alive s'.
Proof.
  intros [A1 A2 A3 A4 A5] H.
  inv_step H; constructor; simpl; try done; try congruence.
  all: intros code [= <-]; split; [done |]; split; [tauto |]; by eexists _, _.
Qed.

Lemma Alive_exec (ls : list Label) (s s' : State) :
  Alive s -> exec P ls s = Some s' -> Alive s'.
Proof.
  revert s. induction ls as [| l ls IH]; intros s HA Hx; simplify_eq/=; [done |].
  destruct (step P l s) as [s1 |] eqn:Hs; [| done].
  eapply IH; [| done]. by eapply Alive_step.
Qed.



(** [ListenAndServe] does not return once it has bound the port. *)
Lemma step_orch_serving (l : Label) (s s' : State) :
  orch s = OServe Serving -> step P l s = Some s' ->
  orch s' = OServe Serving /\ nRebuild s' = nRebuild s.
Proof. intros Ho H. inv_step H; done || congruence. Qed.

Lemma step_watch_registered (l : Label) (s s' : State) :
  watcher s = WBlocked -> step P l s = Some s' ->
  watcher s' = WBlocked /\ exited s' = None.
Proof.
  intros Hw H. pose proof (step_not_exited P l s s' H) as Hex.
  inv_step H; done || congruence.
Qed.

Lemma step_port_other (l : Label) (s s' : State) :
  tcp s = PortOther -> l <> LPortRelease -> step P l s = Some s' ->
  tcp s' = PortOther.
Proof. intros Ht Hl H. inv_step H; done || congruence. Qed.

Lemma step_target (l : Label) (s s' : State) :
  step P l s = Some s' -> file s' = file s /\ tmpl s' = tmpl s.
Proof. intros H. by inv_step H. Qed.

End WatchMode.

(** X6: in watch mode at most one of the two calls of [serveContent] is
    inside [ListenAndServe] with the port bound, the port tells which one,
    and a WebSocket handler only exists while one of them is. *)
Theorem one_listener (P : Platform) (d : FS) (busy : bool) (f t : string)
    (ls : list Label) (s : State) :
  exec P ls (watching d busy f t) = Some s ->
  (tcp s = PortHeld FirstCycle <-> srv s = SServe Serving)
  /\ (tcp s = PortHeld Orchestrator <-> orch s = OServe Serving)
  /\ ~ (srv s = SServe Serving /\ orch s = OServe Serving)
  /\ (conns s <> [] -> listening s = true).
Proof.
  intros Hx.
  pose proof (Inv_exec P ls _ s (Inv_watching d busy f t) Hx) as HI.
  destruct HI as [_ _ _ I4 I5 I6 _ _].
  split; [exact I4 |]. split; [exact I5 |]. split.
  - intros [Hs Ho]. apply I4 in Hs. apply I5 in Ho. congruence.
  - intros Hne. destruct (listening s) eqn:Hl; [done |].
    by destruct (I6 eq_refl) as [Hnil _].
Qed.

Lemma one_listener_witness :
  tcp orchestrator_serving = PortHeld Orchestrator
  <-> orch orchestrator_serving = OServe Serving.
Proof.
  destruct (one_listener sample_platform sample_disk false "a.md" ""
              orchestrator_first orchestrator_serving) as (_ & H & _);
    [vm_compute; reflexivity |].
  exact H.
Defined.

(** X7: when the orchestrator's own [ListenAndServe] binds the port (the
    first cycle had not bound it), live reload is over: whatever happens
    next the orchestrator stays in that call and receives no further
    RebuildEvent, and the [build_complete] messages ever written are at
    most the RebuildEvents received until then. *)
Theorem orchestrator_serving_ends_reload (P : Platform) (d : FS) (busy : bool)
    (f t : string) (ls0 ls : list Label) (s s' : State) :
  exec P ls0 (watching d busy f t) = Some s ->
  orch s = OServe Serving ->
  exec P ls s = Some s' ->
  orch s' = OServe Serving
  /\ nRebuild s' = nRebuild s
  /\ nMessage s' <= nRebuild s.
Proof.
  intros Hx0 Ho Hx.
  assert (Hkeep : orch s' = OServe Serving /\ nRebuild s' = nRebuild s).
  { clear Hx0. revert s Ho Hx.
    induction ls as [| l ls IH]; intros s Ho Hx; simplify_eq/=; [done |].
    destruct (step P l s) as [s1 |] eqn:Hs; [| done].
    destruct (step_orch_serving P l s s1 Ho Hs) as [Ho1 Hn1].
    rewrite <- Hn1. by apply IH. }
  destruct Hkeep as [Ho' Hn']. split; [done |]. split; [done |].
  pose proof (Inv_exec P ls0 _ s (Inv_watching d busy f t) Hx0) as HI.
  pose proof (Inv_exec P ls _ s' HI Hx) as HI'.
  destruct (Inv_bounds s' HI') as (Hm & Hu & _). lia.
Qed.

Lemma orchestrator_serving_ends_reload_witness :
  orch (after first_cycle_late orchestrator_serving) = OServe Serving
  /\ nRebuild (after first_cycle_late orchestrator_serving)
     = nRebuild orchestrator_serving.
Proof.
  destruct (orchestrator_serving_ends_reload sample_platform sample_disk false
              "a.md" "" orchestrator_first first_cycle_late
              orchestrator_serving (after first_cycle_late orchestrator_serving))
    as (Ho & Hn & _);
    [vm_compute; reflexivity | reflexivity | vm_compute; reflexivity |].
  split; [exact Ho | exact Hn].
Defined.

(** X8: once [watcher.Add] has succeeded the process never ends by
    itself: after any further steps it has not exited and [fileWatcher] is
    still blocked on its empty channel. *)
Theorem watch_registered_never_exits (P : Platform) (ls : list Label)
    (s s' : State) :
  watcher s = WBlocked ->
  exited s = None ->
  exec P ls s = Some s' ->
  exited s' = None /\ watcher s' = WBlocked.
Proof.
  revert s. induction ls as [| l ls IH]; intros s Hw Hex Hx; simplify_eq/=.
  { done. }
  destruct (step P l s) as [s1 |] eqn:Hs; [| done].
  destruct (step_watch_registered P l s s1 Hw Hs) as [Hw1 Hex1].
  by apply (IH s1).
Qed.

Lemma watch_registered_never_exits_witness :
  exited blocked_no_client = None /\ watcher blocked_no_client = WBlocked.
Proof.
  apply (watch_registered_never_exits sample_platform
           [LListen FirstCycle; LPreview; LOsEvent write_event; LPumpEvent;
            LRebuild; LListen Orchestrator; LOsEvent write_event; LPumpEvent]
           (after [LWatcherNew None; LWatcherAdd None]
                  (watching sample_disk false "a.md" ""))).
  - reflexivity.
  - reflexivity.
  - vm_compute. reflexivity.
Defined.

(** X9: watch mode ends by itself in one way only: with status 1, the
    error as the last line of the trace, on the error stream, out of a
    [fileWatcher] that has not got past [fsnotify.NewWatcher] or
    [watcher.Add]. *)
Theorem watch_mode_exit_only_fatal (P : Platform) (d : FS) (busy : bool)
    (f t : string) (ls : list Label) (s : State) (code : Z) :
  exec P ls (watching d busy f t) = Some s ->
  exited s = Some code ->
  code = 1%Z
  /\ (watcher s = WNew \/ watcher s = WAdd)
  /\ exists e tr, trace s = Stderr e :: tr.
Proof.
  intros Hx Hex.
  pose proof (Alive_exec P ls _ s (Alive_watching d busy f t) Hx) as HA.
  by apply (alive_exit s HA).
Qed.

Lemma watch_mode_exit_only_fatal_witness :
  watcher (after watch_fails (watching sample_disk false "nowhere.md" "")) = WNew
  \/ watcher (after watch_fails (watching sample_disk false "nowhere.md" "")) = WAdd.
Proof.
  destruct (watch_mode_exit_only_fatal sample_platform sample_disk false
              "nowhere.md" "" watch_fails
              (after watch_fails (watching sample_disk false "nowhere.md" "")) 1)
    as (_ & H & _); [vm_compute; reflexivity | reflexivity |].
  exact H.
Defined.





Section WatchMode2.
Context (P : Platform).

Lemma step_trace (l : Label) (s s' : State) :
  step P l s = Some s' -> exists new, trace s' = (new ++ trace s)%list.
Proof.
  intros H. inv_step H;
    first [by exists [] | by eexists [_] ].
Qed.

Lemma exec_trace (ls : list Label) (s s' : State) (o : Obs) :
  exec P ls s = Some s' -> o ∈ trace s -> o ∈ trace s'.
Proof.
  revert s. induction ls as [| l ls IH]; intros s Hx Hin; simplify_eq/=; [done |].
  destruct (step P l s) as [s1 |] eqn:Hs; [| done].
  apply (IH s1 Hx). destruct (step_trace l s s1 Hs) as [new ->].
  apply elem_of_app. by right.
Qed.

Lemma exec_port_other (ls : list Label) (s s' : State) :
  tcp s = PortOther -> LPortRelease ∉ ls -> exec P ls s = Some s' ->
  tcp s' = PortOther.
Proof.
  revert s. induction ls as [| l ls IH]; intros s Ht Hno Hx; simplify_eq/=; [done |].
  destruct (step P l s) as [s1 |] eqn:Hs; [| done].
  apply not_elem_of_cons in Hno as [Hl Hno].
  apply (IH s1); [| done | done].
  by apply (step_port_other P l s s1).
Qed.

Lemma exec_target (ls : list Label) (s s' : State) :
  exec P ls s = Some s' ->
  file s' = file s /\ tmpl s' = tmpl s /\ disk s' = disk_after (disk s) ls.
Proof.
  revert s. induction ls as [| l ls IH]; intros s Hx; simplify_eq/=; [done |].
  destruct (step P l s) as [s1 |] eqn:Hs; [| done].
  destruct (IH s1 Hx) as (-> & -> & ->).
  destruct (step_target P l s s1 Hs) as [-> ->].
  split; [done |]. split; [done |].
  clear IH Hx. inv_step Hs; done.
Qed.

End WatchMode2.

(** X11: a value sent on [serverUp] is taken by one handler, which was
    waiting; every other connection is as it was, so of several connected
    browsers one call of [serveContent] notifies one. *)
Theorem serverUp_wakes_one_handler (P : Platform) (w : Who) (i : nat)
    (s s' : State) :
  step P (LUp w i) s = Some s' ->
  (exists o, conns s !! i = Some (mkConn WsWait o)
             /\ conns s' !! i = Some (mkConn (WsGot true) o))
  /\ (forall j, j <> i -> conns s' !! j = conns s !! j)
  /\ length (conns s') = length (conns s)
  /\ nUp s' = S (nUp s)
  /\ nMessage s' = nMessage s.
Proof.
  intros H. unfold step in H.
  destruct (exited s); [done |].
  destruct (conns s !! i) as [[[] o] |] eqn:Hc; try done.
  assert (Hi : i < length (conns s)) by (by eapply lookup_lt_Some).
  assert (Hs' : conns s' = <[i := mkConn (WsGot true) o]> (conns s)
                /\ trace s' = ObsUp w i :: trace s).
  { destruct w, (orch s) as [| | [] |], (srv s) as [| [] |]; by simplify_eq/=. }
  destruct Hs' as [Hcs Htr]. unfold nUp, nMessage. rewrite Hcs, Htr.
  split; [| split; [| split; [| split]]].
  - exists o. split; [done |]. by apply list_lookup_insert_eq.
  - intros j Hj. by apply list_lookup_insert_ne.
  - apply length_insert.
  - reflexivity.
  - reflexivity.
Qed.

Lemma serverUp_wakes_one_handler_witness :
  conns (after [LUp Orchestrator 0] two_clients_waiting) !! 1
  = conns two_clients_waiting !! 1.
Proof.
  destruct (serverUp_wakes_one_handler sample_platform Orchestrator 0
              two_clients_waiting (after [LUp Orchestrator 0] two_clients_waiting))
    as (_ & H & _); [vm_compute; reflexivity |].
  by apply H.
Defined.

(** X12: a handler does nothing on its connection before it has received
    from [serverUp]; the value it receives is never false, so the test of
    line 232 always passes; it never closes a connection it has not
    written [build_complete] to, and never writes a close message. *)
Theorem handler_silent_until_notified (P : Platform) (d : FS) (busy : bool)
    (f t : string) (ls : list Label) (s : State) (i : nat) (c : Conn) :
  exec P ls (watching d busy f t) = Some s ->
  conns s !! i = Some c ->
  wpc c <> WsGot false
  /\ (wpc c = WsWait \/ wpc c = WsGot true -> ops c = [])
  /\ (OpClose ∈ ops c -> OpWriteJSON build_complete ∈ ops c)
  /\ (forall code reason, OpWriteClose code reason ∉ ops c).
Proof.
  intros Hx Hc.
  pose proof (Inv_exec P ls _ s (Inv_watching d busy f t) Hx) as HI.
  pose proof (proj1 (Forall_lookup _ _) (inv_conns s HI) i c Hc) as Hok.
  unfold conn_ok in Hok.
  destruct (wpc c) as [| [|] | |]; try done; rewrite Hok.
  all: split; [done |]; split; [by intros [|] |]; split.
  all: try (intros Hin; by repeat (apply elem_of_cons in Hin as [Hin | Hin];
                                   [discriminate |]); apply elem_of_nil in Hin).
  all: try (intros _; by left).
  all: intros code reason Hin;
    repeat (apply elem_of_cons in Hin as [Hin | Hin]; [discriminate |]);
    by apply elem_of_nil in Hin.
Qed.

Lemma handler_silent_until_notified_witness :
  ops (mkConn WsWait []) = [].
Proof.
  destruct (handler_silent_until_notified sample_platform sample_disk false
              "a.md" "" two_clients two_clients_waiting 1 (mkConn WsWait []))
    as (_ & H & _); [vm_compute; reflexivity | vm_compute; reflexivity |].
  apply H. by left.
Defined.

(** X13: when another process holds port 5052 and keeps it, watch mode
    has printed its listening line all the same, and serves nothing: no
    request is answered, no WebSocket connection is accepted, no value on
    [serverUp] is ever taken and no [build_complete] is ever written. *)
Theorem busy_port_never_serves (P : Platform) (d : FS) (f t : string)
    (ls : list Label) (s : State) :
  exec P ls (watching d true f t) = Some s ->
  LPortRelease ∉ ls ->
  Stdout "Server listening on http://localhost:5052/content" ∈ trace s
  /\ tcp s = PortOther
  /\ conns s = [] /\ nUp s = 0 /\ nMessage s = 0
  /\ step P LGetContent s = None
  /\ forall err, step P (LGetWebsocket err) s = None.
Proof.
  intros Hx Hno.
  pose proof (Inv_exec P ls _ s (Inv_watching d true f t) Hx) as HI.
  assert (Ht : tcp s = PortOther)
    by (by apply (exec_port_other P ls (watching d true f t))).
  assert (Hl : listening s = false) by (unfold listening; by rewrite Ht).
  destruct (inv_closed s HI Hl) as [Hnil Hup].
  destruct (Inv_bounds s HI) as (Hm & _).
  split. { apply (exec_trace P ls _ s _ Hx). simpl. by left. }
  split; [done |]. split; [done |]. split; [done |]. split; [lia |].
  unfold step. rewrite Hl. by destruct (exited s).
Qed.

Lemma busy_port_never_serves_witness :
  step sample_platform LGetContent (after port_taken (watching sample_disk true "a.md" ""))
  = None.
Proof.
  destruct (busy_port_never_serves sample_platform sample_disk "a.md" ""
              port_taken (after port_taken (watching sample_disk true "a.md" "")))
    as (_ & _ & _ & _ & _ & H & _).
  - vm_compute. reflexivity.
  - intros Hin. unfold port_taken in Hin.
    repeat (apply elem_of_cons in Hin as [Hin | Hin]; [discriminate |]).
    by apply elem_of_nil in Hin.
  - exact H.
Defined.

(** X15: the watch target and the template name never change, the program
    never writes a file in watch mode, and a request to the content
    endpoint is answered from the files as they are when it is made: the
    response is [ServeHTTP] on the files after the last change, for the
    file name and template name of the command line, and the request
    changes nothing but the trace. *)
Theorem content_endpoint_current_files (P : Platform) (d : FS) (busy : bool)
    (f t : string) (ls : list Label) (s s' : State) :
  exec P ls (watching d busy f t) = Some s ->
  step P LGetContent s = Some s' ->
  file s = f /\ tmpl s = t /\ disk s = disk_after d ls
  /\ s' = emit (ObsResponse (ServeHTTP P (disk_after d ls) (mkHandler [] f t))) s.
Proof.
  intros Hx Hs.
  destruct (exec_target P ls _ s Hx) as (Hf & Ht & Hd). simpl in Hf, Ht, Hd.
  split; [done |]. split; [done |]. split; [done |].
  unfold step in Hs. destruct (exited s); [done |].
  destruct (listening s); [| done]. rewrite Hf, Ht, Hd in Hs. by simplify_eq.
Qed.

Lemma content_endpoint_current_files_witness :
  disk (after saved_twice (watching sample_disk false "a.md" ""))
  = disk_after sample_disk saved_twice.
Proof.
  destruct (content_endpoint_current_files sample_platform sample_disk false
              "a.md" "" saved_twice
              (after saved_twice (watching sample_disk false "a.md" ""))
              (emit (ObsResponse [sample_html])
                 (after saved_twice (watching sample_disk false "a.md" ""))))
    as (_ & _ & H & _); [vm_compute; reflexivity | vm_compute; reflexivity |].
  exact H.
Defined.


(** X5: once the first cycle has bound the port it keeps it: whatever
    happens next it is still inside [ListenAndServe], the port is its own,
    and no call of [serveContent] by the orchestrator ever serves; each
    such call that has tried has found the port taken. *)
Theorem first_cycle_keeps_port (P : Platform) (d : FS) (busy : bool)
    (f t : string) (ls0 ls : list Label) (s s' : State) :
  exec P ls0 (watching d busy f t) = Some s ->
  srv s = SServe Serving ->
  exec P ls s = Some s' ->
  tcp s' = PortHeld FirstCycle
  /\ srv s' = SServe Serving
  /\ orch s' <> OServe Serving
  /\ forall s'', step P (LListen Orchestrator) s' = Some s'' ->
       orch s'' = OServe SendUp /\ tcp s'' = PortHeld FirstCycle.
Proof.
  intros Hx0 Hs Hx.
  pose proof (Inv_exec P ls0 _ s (Inv_watching d busy f t) Hx0) as HI.
  pose proof (Inv_exec P ls _ s' HI Hx) as HI'.
  assert (Ht : tcp s = PortHeld FirstCycle) by (by apply (inv_first s HI)).
  assert (Ht' : tcp s' = PortHeld FirstCycle).
  { clear Hx0 HI HI' Hs. revert s Ht Hx.
    induction ls as [| l ls IH]; intros s Ht Hx; simplify_eq/=; [done |].
    destruct (step P l s) as [s1 |] eqn:Hs1; [| done].
    apply (IH s1); [| done]. by apply (step_port_held P l s s1). }
  split; [done |]. split; [by apply (inv_first s' HI') |]. split.
  - intros Ho. apply (inv_orch s' HI') in Ho. congruence.
  - intros s'' Hl. unfold step in Hl. destruct (exited s'); [done |].
    destruct (orch s') as [| | [] |]; try done.
    unfold serveContent in Hl. rewrite Ht' in Hl. by simplify_eq/=.
Qed.

Lemma first_cycle_keeps_port_witness :
  tcp reloaded_twice = PortHeld FirstCycle.
Proof.
  destruct (first_cycle_keeps_port sample_platform sample_disk false "a.md" ""
              [LListen FirstCycle] (tail two_rapid_writes)
              (after [LListen FirstCycle] (watching sample_disk false "a.md" ""))
              reloaded_twice)
    as (H & _);
    [vm_compute; reflexivity | reflexivity | vm_compute; reflexivity |].
  exact H.
Defined.
